(** * language-server: path sandbox, backend registry and the validate tool

    A shallow embedding of [src/language-server/server.py]: the
    [LanguageServer] class ([validate_path], [validate_file]), the static
    [LANGUAGE_CONFIGS] table and the [handle_call_tool] request handler,
    followed by the properties of the specification that concern them.

    Python exceptions are explicit ([outcome]); the file system, which the
    code reaches through [pathlib], is a read-only environment whose
    accesses are recorded, together with the log records, in a trace. *)

From Stdlib Require Import ZArith Ascii String.
From stdpp Require Import base option list strings gmap pretty.

Local Open Scope Z_scope.

(** ** Exceptions and outcomes *)

(** The exception classes the code raises or can meet.  All of them are
    subclasses of Python's [Exception].  A [ValidationError] is what
    pydantic raises when a model is built from a value of the wrong type;
    it is kept as its [title] and, for each failure, the field and the
    kind of error ([e.errors()]). *)
Inductive exn : Type :=
  | ValueError (msg : string)
  | IndexError (msg : string)
  | KeyError (msg : string)
  | OSError (msg : string)
  | RuntimeError (msg : string)
  | TypeError (msg : string)
  | ValidationError (title : string) (errors : list (string * string)).

(** [str(e)].  Of the report of a [ValidationError] the first line is
    kept (the lines after it repeat the field and the kind of each error
    in a wording that depends on the version of pydantic); the code never
    takes the text of such an exception. *)
Definition str_exn (e : exn) : string :=
  match e with
  | ValueError msg | IndexError msg | KeyError msg
  | OSError msg | RuntimeError msg | TypeError msg => msg
  | ValidationError title errors =>
      pretty (List.length errors) +:+ " validation error"
      +:+ (if bool_decide (List.length errors = 1%nat) then "" else "s")
      +:+ " for " +:+ title
  end.

Inductive outcome (A : Type) : Type :=
  | Return (a : A)
  | Raise (e : exn).
Arguments Return {A} a.
Arguments Raise {A} e.

(** ** Strings *)

Module Str.

(** [c.lower()] on the ASCII range: only [A]..[Z] change.  Strings are
    kept as bytes and bytes outside ASCII are left as they are, where
    Python lower-cases the letters of every alphabet.  No character
    outside ASCII lower-cases to a letter of a key of [LANGUAGE_CONFIGS],
    so membership in the table is as in Python; the one thing that
    differs is the spelling of an extension with capital letters outside
    ASCII in the text of the unsupported-file-type error. *)
Definition lower_ascii (c : ascii) : ascii :=
  let n := N_of_ascii c in
  if ((65 <=? n) && (n <=? 90))%N then ascii_of_N (n + 32) else c.

(** [s.lower()] *)
Fixpoint lower (s : string) : string :=
  match s with
  | EmptyString => EmptyString
  | String c s' => String (lower_ascii c) (lower s')
  end.

Fixpoint rfind_from (c : ascii) (s : string) (i acc : Z) : Z :=
  match s with
  | EmptyString => acc
  | String a s' =>
      rfind_from c s' (i + 1) (if Ascii.eqb a c then i else acc)
  end.

(** [s.rfind(c)]: the highest index of [c] in [s], or [-1]. *)
Definition rfind (c : ascii) (s : string) : Z := rfind_from c s 0 (-1).

Fixpoint drop (n : nat) (s : string) : string :=
  match n, s with
  | O, _ => s
  | S n', String _ s' => drop n' s'
  | S _, EmptyString => EmptyString
  end.

(** [s[i:]] for [0 <= i] *)
Definition slice_from (s : string) (i : Z) : string := drop (Z.to_nat i) s.

(** [len(s)] *)
Definition len (s : string) : Z := Z.of_nat (String.length s).

(** Truth value of a string: the empty string is false. *)
Definition truthy (s : string) : bool :=
  match s with EmptyString => false | String _ _ => true end.

(** Truth value of an [Optional[str]]: [None] and [""] are false. *)
Definition opt_truthy (o : option string) : bool :=
  match o with None => false | Some s => truthy s end.

End Str.

(** ** Paths

    A resolved [pathlib.Path] is absolute; it is kept as the list of its
    components below the root, so [/repo/src/a.py] is
    [["repo"; "src"; "a.py"]] and the root is [[]]. *)

Abbreviation Path := (list string).

Module PurePath.

(** [str(path)] *)
Definition str (p : Path) : string :=
  match p with
  | [] => "/"
  | _ => foldr (fun c acc => "/" +:+ c +:+ acc) "" p
  end.

(** The proper prefixes of a path, shortest first. *)
Fixpoint prefixes (p : Path) : list Path :=
  match p with
  | [] => []
  | c :: q => [] :: map (cons c) (prefixes q)
  end.

(** [path.parents]: the logical ancestors, nearest first; the path itself
    is not among them and the root has none. *)
Definition parents (p : Path) : list Path := rev (prefixes p).

(** [path.name]: the final component, [""] for the root. *)
Definition name (p : Path) : string := List.last p "".

(** [path.suffix]: the final component from its last dot on, when that
    dot is neither the first nor the last character of the name
    ([i = name.rfind('.')], [0 < i < len(name) - 1], [name[i:]]). *)
Definition suffix (p : Path) : string :=
  let name := name p in
  let i := Str.rfind "." name in
  if (0 <? i) && (i <? Str.len name - 1) then Str.slice_from name i
  else "".

End PurePath.


(** ** The environment: file system, log, and the monad of the server *)

(** What [pathlib] asks of the operating system.  [fs_resolve] is
    [Path(s).resolve()]: the absolute form of [s] with symbolic links
    followed; [fs_exists] is [path.exists()].  Either may raise. *)
Record FileSystem : Type := {
  fs_resolve : string -> outcome Path;
  fs_exists : Path -> outcome bool
}.

Inductive log_level : Type := INFO | ERROR.

(** The arguments a log record is given, kept unformatted as [logging]
    does. *)
Inductive log_arg : Type :=
  | ArgPath (p : Path)
  | ArgPaths (ps : list Path)
  | ArgCommand (command : list string)
  | ArgExn (e : exn).

Inductive event : Type :=
  | EvResolve (s : string)
  | EvExists (p : Path)
  | EvLog (level : log_level) (fmt : string) (args : list log_arg).

(** A computation reads the file system, appends to the trace of events
    and returns or raises. *)
Definition M (A : Type) : Type := FileSystem -> list event * outcome A.

#[global] Instance M_ret : MRet M := fun A a _ => ([], Return a).

#[global] Instance M_bind : MBind M := fun A B f m fs =>
  match m fs with
  | (t, Return a) => let '(t', r) := f a fs in (t ++ t', r)
  | (t, Raise e) => (t, Raise e)
  end.

Definition raise {A : Type} (e : exn) : M A := fun _ => ([], Raise e).

(** [try: m except Exception as e: h e] *)
Definition try_except {A : Type} (m : M A) (h : exn -> M A) : M A := fun fs =>
  match m fs with
  | (t, Return a) => (t, Return a)
  | (t, Raise e) => let '(t', r) := h e fs in (t ++ t', r)
  end.

(** Lifting of a pure step that may raise. *)
Definition lift {A : Type} (o : outcome A) : M A := fun _ => ([], o).

Definition resolve (s : string) : M Path := fun fs =>
  ([EvResolve s], fs_resolve fs s).

Definition exists_ (p : Path) : M bool := fun fs =>
  ([EvExists p], fs_exists fs p).

Definition logger_info (fmt : string) (args : list log_arg) : M unit :=
  fun _ => ([EvLog INFO fmt args], Return tt).

Definition logger_error (fmt : string) (args : list log_arg) : M unit :=
  fun _ => ([EvLog ERROR fmt args], Return tt).

Fixpoint mapM {A B : Type} (f : A -> M B) (l : list A) : M (list B) :=
  match l with
  | [] => mret []
  | x :: l' => y ← f x; ys ← mapM f l'; mret (y :: ys)
  end.

(** The result of a run, without its trace. *)
Definition result_of {A : Type} (r : list event * outcome A) : outcome A := r.2.

(** ** Models *)

Record LanguageConfig : Type := {
  command : list string;
  extensions : list string;
  language_id : string
}.

(** [line] and [column] are declared [ge=0]; [severity] is any [int]. *)
Record Diagnostic : Type := {
  message : string;
  severity : Z;
  line : N;
  column : N;
  source : option string
}.

Record ValidationResult : Type := {
  file_path : string;
  diagnostics : list Diagnostic;
  error : option string
}.

(** [ValidationResult(file_path=..., error=...)] with the declared
    defaults. *)
Definition ValidationResult_new (file_path : string) (error : option string)
  : ValidationResult :=
  {| file_path := file_path; diagnostics := []; error := error |}.

(** ** Language server configurations *)

Definition LANGUAGE_CONFIGS : gmap string LanguageConfig :=
  list_to_map [
    (".ts", {| command := ["typescript-language-server"; "--stdio"];
               extensions := [".ts"; ".tsx"];
               language_id := "typescript" |});
    (".tsx", {| command := ["typescript-language-server"; "--stdio"];
                extensions := [".ts"; ".tsx"];
                language_id := "typescriptreact" |});
    (".js", {| command := ["typescript-language-server"; "--stdio"];
               extensions := [".js"; ".jsx"];
               language_id := "javascript" |});
    (".jsx", {| command := ["typescript-language-server"; "--stdio"];
                extensions := [".js"; ".jsx"];
                language_id := "javascriptreact" |});
    (".py", {| command := ["pylsp"];
               extensions := [".py"];
               language_id := "python" |});
    (".zig", {| command := ["zls"];
                extensions := [".zig"];
                language_id := "zig" |})
  ].

(** [k in d] *)
Definition dict_contains {V : Type} (d : gmap string V) (k : string) : bool :=
  bool_decide (is_Some (d !! k)).

(** [d[k]] *)
Definition dict_getitem {V : Type} (d : gmap string V) (k : string)
  : outcome V :=
  match d !! k with
  | Some v => Return v
  | None => Raise (KeyError k)
  end.

(** [sys.maxsize], the largest index CPython can hold, on a 64-bit
    platform. *)
Definition PY_SSIZE_T_MAX : Z := 2 ^ 63 - 1.

(** [l[i]]: the index is first brought to the size of a machine index,
    which fails for an integer beyond it; a negative index then counts
    from the end; outside [-len(l) .. len(l) - 1] the access raises. *)
Definition list_getitem {A : Type} (l : list A) (i : Z) : outcome A :=
  if (i <? - PY_SSIZE_T_MAX - 1) || (PY_SSIZE_T_MAX <? i) then
    Raise (IndexError "cannot fit 'int' into an index-sized integer")
  else
    let n := Z.of_nat (List.length l) in
    let j := if i <? 0 then i + n else i in
    if (j <? 0) || (n <=? j) then Raise (IndexError "list index out of range")
    else match l !! Z.to_nat j with
         | Some x => Return x
         | None => Raise (IndexError "list index out of range")
         end.

(** ** class LanguageServer *)

Record LanguageServer : Type := {
  allowed_dirs : list Path
}.

(** [LanguageServer.__init__] *)
Definition LanguageServer_init (dirs : list string) : M LanguageServer :=
  resolved ← mapM resolve dirs;
  logger_info "Allowed directories: %s" [ArgPaths resolved];;
  mret {| allowed_dirs := resolved |}.

(** The test of [validate_path]: some allowed directory is among the
    parents of [path]. *)
Definition within_allowed (self : LanguageServer) (path : Path) : bool :=
  existsb
    (fun allowed_dir =>
       existsb (fun parent => bool_decide (parent = allowed_dir))
               (PurePath.parents path))
    (allowed_dirs self).

(** [LanguageServer.validate_path] *)
Definition validate_path (self : LanguageServer) (file_path : string)
  : M Path :=
  path ← resolve file_path;
  if negb (within_allowed self path) then
    raise (ValueError ("Path not in allowed directories: " +:+ PurePath.str path))
  else
    present ← exists_ path;
    if negb present then
      raise (ValueError ("File does not exist: " +:+ PurePath.str path))
    else mret path.

(** [LanguageServer.validate_file] *)
Definition validate_file (self : LanguageServer) (file_path : string)
  : M ValidationResult :=
  try_except
    (path ← validate_path self file_path;
     let ext := Str.lower (PurePath.suffix path) in
     if negb (dict_contains LANGUAGE_CONFIGS ext) then
       mret (ValidationResult_new file_path
               (Some ("Unsupported file type: " +:+ ext)))
     else
       config ← lift (dict_getitem LANGUAGE_CONFIGS ext);
       logger_info "Validating %s using %s"
                   [ArgPath path; ArgCommand (command config)];;
       mret (ValidationResult_new file_path None))
    (fun e =>
       logger_error "Validation failed: %s" [ArgExn e];;
       mret (ValidationResult_new file_path (Some (str_exn e)))).

(** ** Values that arrive as JSON *)

(** The Python values a JSON text is parsed to: the arguments of a call
    are made of them, and so is a tool's [inputSchema].  A float is kept
    as its literal. *)
#[warnings="-register-all"]
Inductive json : Type :=
  | JNull
  | JBool (b : bool)
  | JInt (z : Z)
  | JFloat (literal : string)
  | JString (s : string)
  | JArray (items : list json)
  | JObject (fields : list (string * json)).

(** [type(v).__name__] *)
Definition type_name (v : json) : string :=
  match v with
  | JNull => "NoneType"
  | JBool _ => "bool"
  | JInt _ => "int"
  | JFloat _ => "float"
  | JString _ => "str"
  | JArray _ => "list"
  | JObject _ => "dict"
  end.

(** [LanguageServer.validate_file] as Python runs it on any argument: the
    annotation [file_path: str] is not checked at the call.  On a string
    it is [validate_file].  On anything else [Path(file_path)] raises a
    [TypeError] (worded as by Python 3.11), the [except] clause logs it,
    and [ValidationResult(file_path=file_path, ...)] then fails the
    validation of its [str] field, inside the handler of the exception,
    so that the [ValidationError] leaves the method. *)
Definition validate_file_any (self : LanguageServer) (file_path : json)
  : M ValidationResult :=
  match file_path with
  | JString s => validate_file self s
  | _ =>
      try_except
        (raise (TypeError ("expected str, bytes or os.PathLike object, not "
                           +:+ type_name file_path)))
        (fun e =>
           logger_error "Validation failed: %s" [ArgExn e];;
           raise (ValidationError "ValidationResult"
                                  [("file_path", "string_type")]))
  end.

(** ** The tool-call handler of [create_server] *)

(** The arguments of a call are a dictionary of JSON values, or absent.
    The tool's [inputSchema] declares [file_path] a string, but nothing in
    the handler checks a call against it. *)
Record CallToolRequestParams : Type := {
  name : string;
  arguments : option (gmap string json)
}.

Record CallToolRequest : Type := {
  params : CallToolRequestParams
}.

Record TextContent : Type := {
  type_ : string;
  text : string
}.

Record CallToolResult : Type := {
  content : list TextContent
}.

(** The newline character of the format strings. *)
Definition nl : string := String "010"%char EmptyString.

(** The list the handler indexes with [diag.severity - 1]. *)
Definition SEVERITY_LABELS : list string := ["Error"; "Warning"; "Info"; "Hint"].

(** The label of one diagnostic, as the handler computes it. *)
Definition severity_label (sev : Z) : outcome string :=
  list_getitem SEVERITY_LABELS (sev - 1).

(** The body of [for diag in result.diagnostics], from the text built so
    far. *)
Fixpoint format_diagnostics (text : string) (diags : list Diagnostic)
  : M string :=
  match diags with
  | [] => mret text
  | diag :: rest =>
      label ← lift (severity_label (severity diag));
      let text := text +:+ "â€¢ " +:+ label +:+ " at line " +:+ pretty (line diag)
                       +:+ ", column " +:+ pretty (column diag) +:+ ": "
                       +:+ message diag +:+ nl in
      let text := if Str.opt_truthy (source diag)
                  then text +:+ "  Source: " +:+ default "" (source diag) +:+ nl
                  else text in
      format_diagnostics text rest
  end.

(** [not request.params.arguments]: no dictionary, or an empty one. *)
Definition arguments_falsy (args : option (gmap string json)) : bool :=
  match args with
  | None => true
  | Some d => bool_decide (d = ∅)
  end.

Section create_server.

(** [language_server.validate_file], the method of the object the
    handler closes over; it is handed the argument as it came. *)
Variable language_server_validate_file : json -> M ValidationResult.

Definition handle_call_tool (request : CallToolRequest) : M CallToolResult :=
  if negb (bool_decide (name (params request) = "validate")) then
    raise (ValueError ("Unknown tool: " +:+ name (params request)))
  else if arguments_falsy (arguments (params request))
       || negb (dict_contains (default ∅ (arguments (params request)))
                              "file_path") then
    raise (ValueError "Missing required argument: file_path")
  else
    arg ← lift (dict_getitem (default ∅ (arguments (params request)))
                             "file_path");
    result ← language_server_validate_file arg;
    let text := "Validation results for " +:+ file_path result +:+ ":" +:+ nl in
    text ← (if Str.opt_truthy (error result) then
              mret (text +:+ "Error: " +:+ default "" (error result) +:+ nl)
            else if bool_decide (diagnostics result = []) then
              mret (text +:+ "No issues found" +:+ nl)
            else
              format_diagnostics (text +:+ nl +:+ "Diagnostics:" +:+ nl)
                                 (diagnostics result));
    mret {| content := [{| type_ := "text"; text := text |}] |}.

End create_server.

(** The handler of the server built for a [LanguageServer]. *)
Definition server_call_tool (language_server : LanguageServer)
  : CallToolRequest -> M CallToolResult :=
  handle_call_tool (validate_file_any language_server).

(** ** A concrete file system

    A file system without symbolic links, given by its working directory
    and the paths that exist: [resolve] is then lexical. *)

Module PosixFs.

Fixpoint split_go (cur : string) (s : string) : list string :=
  match s with
  | EmptyString => [String.rev cur]
  | String c s' =>
      if Ascii.eqb c "/" then String.rev cur :: split_go "" s'
      else split_go (String c cur) s'
  end.

(** [s.split("/")] *)
Definition split (s : string) : list string := split_go "" s.

(** Lexical normalisation onto the stack of components [acc] (innermost
    first): empty and [.] components vanish, [..] pops. *)
Fixpoint normalize (acc : list string) (cs : list string) : Path :=
  match cs with
  | [] => rev acc
  | c :: cs' =>
      if bool_decide (c = "") || bool_decide (c = ".") then normalize acc cs'
      else if bool_decide (c = "..") then normalize (tail acc) cs'
      else normalize (c :: acc) cs'
  end.

Definition is_absolute (s : string) : bool :=
  match s with
  | String c _ => Ascii.eqb c "/"
  | EmptyString => false
  end.

Definition make (cwd : Path) (present : list Path) : FileSystem :=
  {| fs_resolve := fun s =>
       Return (normalize (if is_absolute s then [] else rev cwd) (split s));
     fs_exists := fun p => Return (bool_decide (p ∈ present)) |}.

End PosixFs.

(** The file system of the end-to-end example: [/repo/src/a.py] exists
    under [/repo]. *)
Definition repo_fs : FileSystem :=
  PosixFs.make ["home"; "user"]
    [[]; ["repo"]; ["repo"; "src"]; ["repo"; "src"; "a.py"];
     ["repo"; "src"; "B.PY"]; ["repo"; "README"]; ["etc"]; ["etc"; "passwd"]].

Definition repo_server : LanguageServer := {| allowed_dirs := [["repo"]] |}.

(** A file system on which every path is a symbolic-link loop. *)
Definition looping_fs : FileSystem :=
  {| fs_resolve := fun s =>
       Raise (RuntimeError ("Symlink loop from '" +:+ s +:+ "'"));
     fs_exists := fun _ => Return false |}.

(** A well-formed call of the [validate] tool. *)
Definition validate_request (file_path : string) : CallToolRequest :=
  {| params := {| name := "validate";
                  arguments := Some {[ "file_path" := JString file_path ]} |} |}.

(** The text of an argument that is a string. *)
Definition json_text (v : json) : string :=
  match v with
  | JString s => s
  | _ => ""
  end.

(** A [validate_file] method that reports the one diagnostic [diag]. *)
Definition reports (diag : Diagnostic) (file_path : json)
  : M ValidationResult :=
  mret {| file_path := json_text file_path; diagnostics := [diag];
          error := None |}.

(** ** The tool list of [create_server] *)

Module Tool.

Record t : Type := {
  name : string;
  description : string;
  inputSchema : json
}.

End Tool.

(** A [ListToolsRequest] carries nothing the handler reads. *)
Inductive ListToolsRequest : Type := list_tools_request.

Record ListToolsResult : Type := {
  tools : list Tool.t
}.

(** [handle_list_tools] *)
Definition handle_list_tools (request : ListToolsRequest) : M ListToolsResult :=
  mret {| tools := [
    {| Tool.name := "validate";
       Tool.description := "Validate a file using LSP and return diagnostics";
       Tool.inputSchema :=
         JObject [
           ("type", JString "object");
           ("properties",
            JObject [("file_path", JObject [("type", JString "string")])]);
           ("required", JArray [JString "file_path"])
         ] |}
  ] |}.

(** The value an object gives to a key. *)
Definition json_get (k : string) (j : json) : option json :=
  match j with
  | JObject fields => snd <$> List.find (fun kv => String.eqb (fst kv) k) fields
  | _ => None
  end.

(** The keys a schema lists under ["required"]. *)
Definition required_keys (schema : json) : list string :=
  match json_get "required" schema with
  | Some (JArray items) =>
      omap (fun j => match j with JString s => Some s | _ => None end) items
  | _ => []
  end.

(** [CallToolResult(content=[TextContent(type="text", text=text)])] *)
Definition text_reply (text : string) : CallToolResult :=
  {| content := [{| type_ := "text"; text := text |}] |}.

(** The first line of every reply. *)
Definition reply_header (file_path : string) : string :=
  "Validation results for " +:+ file_path +:+ ":" +:+ nl.

(** What the loop of the handler appends for one diagnostic, given its
    label. *)
Definition diagnostic_lines (label : string) (diag : Diagnostic) : string :=
  ("â€¢ " +:+ label +:+ " at line " +:+ pretty (line diag)
        +:+ ", column " +:+ pretty (column diag) +:+ ": "
        +:+ message diag +:+ nl)
  +:+ (if Str.opt_truthy (source diag)
       then "  Source: " +:+ default "" (source diag) +:+ nl
       else "").

(** The file system of the hidden-file example. *)
Definition dotfile_fs : FileSystem :=
  PosixFs.make [] [[]; ["repo"]; ["repo"; ".py"]].

(** The formatting half of the handler: what it answers once the method
    has returned [result]. *)
Definition format_result (result : ValidationResult) : M CallToolResult :=
  handle_call_tool (fun _ => mret result) (validate_request "").

(** A [validate_file] method that fails with [e]. *)
Definition failing (e : exn) (file_path : json) : M ValidationResult :=
  raise e.

(** [c * n] *)
Fixpoint repeat_char (c : ascii) (n : nat) : string :=
  match n with
  | O => EmptyString
  | S n' => String c (repeat_char c n')
  end.

(** The longest name a directory entry can have. *)
Definition NAME_MAX : nat := 255.

(** The file system [repo_fs] with the limit on the length of a name:
    asking whether a path with a longer component exists fails with
    [ENAMETOOLONG], which [path.exists()] of Python 3.11 lets through. *)
Definition limited_fs : FileSystem :=
  {| fs_resolve := fs_resolve repo_fs;
     fs_exists := fun p =>
       if existsb (fun c => (NAME_MAX <? String.length c)%nat) p then
         Raise (OSError ("[Errno 36] File name too long: '"
                         +:+ PurePath.str p +:+ "'"))
       else fs_exists repo_fs p |}.

(** A file system with a directory whose name begins like that of the
    allowed one. *)
Definition sibling_fs : FileSystem :=
  PosixFs.make [] [[]; ["repo"]; ["repo-private"]; ["repo-private"; "key.py"]].

(** ** The vocabulary of the specification *)

(** An extension as [path.suffix] can produce one: a dot followed by at
    least one character, none of them a dot. *)
Fixpoint has_char (c : ascii) (s : string) : bool :=
  match s with
  | EmptyString => false
  | String a s' => Ascii.eqb a c || has_char c s'
  end.

Definition simple_extension (e : string) : Prop :=
  ∃ rest, e = String "." rest ∧ rest ≠ "" ∧ has_char "." rest = false.

(** [p] is a proper descendant of the directory [d]. *)
Definition strictly_inside (p d : Path) : Prop := d `prefix_of` p ∧ d ≠ p.

#[global] Instance strictly_inside_dec (p d : Path) :
  Decision (strictly_inside p d).
Proof. unfold strictly_inside. apply _. Defined.

(** The two failures of the sandbox, as the code words them. *)
Definition NotAllowed (p : Path) : exn :=
  ValueError ("Path not in allowed directories: " +:+ PurePath.str p).

Definition NotFound (p : Path) : exn :=
  ValueError ("File does not exist: " +:+ PurePath.str p).

(** The failure of the registry, as [validate_file] words it. *)
Definition UnsupportedExtension (ext : string) : string :=
  "Unsupported file type: " +:+ ext.


(** The alphabet, in capitals and in small letters. *)
Definition CAPITALS : string := "ABCDEFGHIJKLMNOPQRSTUVWXYZ".
Definition SMALLS : string := "abcdefghijklmnopqrstuvwxyz".

(** The letters of the alphabet, each capital with its small letter. *)
Definition CASE_PAIRS : list (ascii * ascii) :=
  zip (list_ascii_of_string CAPITALS) (list_ascii_of_string SMALLS).

(** Two characters that are equal, or the capital and the small form of
    one letter, in either order. *)
Definition same_letter (a b : ascii) : Prop :=
  a = b ∨ (a, b) ∈ CASE_PAIRS ∨ (b, a) ∈ CASE_PAIRS.

(** Two strings that differ only in letter case. *)
Inductive differs_only_in_case : string -> string -> Prop :=
  | case_nil : differs_only_in_case "" ""
  | case_cons a b s t :
      same_letter a b -> differs_only_in_case s t ->
      differs_only_in_case (String a s) (String b t).

(** ** Paths and their parents *)

Example parents_abc :
  PurePath.parents ["a"; "b"; "c"] = [["a"; "b"]; ["a"]; []].
Proof. reflexivity. Qed.

Example suffix_examples :
  PurePath.suffix ["repo"; "a.py"] = ".py" /\
  PurePath.suffix ["repo"; "a.tar.GZ"] = ".GZ" /\
  PurePath.suffix ["repo"; ".bashrc"] = "" /\
  PurePath.suffix ["repo"; "a."] = "" /\
  PurePath.suffix [] = "" /\
  PurePath.str ["repo"; "src"; "a.py"] = "/repo/src/a.py".
Proof. repeat split; reflexivity. Qed.

Example LanguageServer_init_repo :
  result_of (LanguageServer_init ["/repo"] repo_fs) = Return repo_server.
Proof. reflexivity. Qed.

Section parents.

Implicit Types p q d : Path.

Lemma elem_of_prefixes q p :
  q ∈ PurePath.prefixes p ↔ strictly_inside p q.
Proof.
  unfold strictly_inside. revert q.
  induction p as [|c p IH]; intros q; simpl.
  - split; [intros H; inversion H|].
    intros [H Hne]. apply prefix_nil_inv in H. congruence.
  - rewrite elem_of_cons, list_elem_of_fmap. split.
    + intros [->|(q' & -> & Hq')].
      * split; [apply prefix_nil | discriminate].
      * apply IH in Hq' as [Hpre Hne].
        split; [by apply prefix_cons | congruence].
    + intros [Hpre Hne]. destruct q as [|a q']; [by left | right].
      pose proof (prefix_cons_inv_1 _ _ _ _ Hpre) as ->.
      apply prefix_cons_inv_2 in Hpre.
      exists q'. split; [done|]. apply IH. split; [done | congruence].
Qed.

Lemma elem_of_parents d p :
  d ∈ PurePath.parents p ↔ strictly_inside p d.
Proof.
  unfold PurePath.parents. rewrite <- elem_of_prefixes.
  rewrite !list_elem_of_In. symmetry. apply in_rev.
Qed.

Lemma not_strictly_inside_self p : ¬ strictly_inside p p.
Proof. intros [_ H]. by apply H. Qed.

Lemma within_allowed_true self p :
  within_allowed self p = true ↔ Exists (strictly_inside p) (allowed_dirs self).
Proof.
  unfold within_allowed. rewrite existsb_exists, Exists_exists.
  split.
  - intros (d & Hd & Hex). exists d. split; [by apply list_elem_of_In|].
    apply existsb_exists in Hex as (q & Hq & Heq).
    apply bool_decide_eq_true in Heq as <-.
    by apply elem_of_parents, list_elem_of_In.
  - intros (d & Hd & Hin). exists d. split; [by apply list_elem_of_In|].
    apply existsb_exists. exists d.
    split; [by apply list_elem_of_In, elem_of_parents|].
    by apply bool_decide_eq_true.
Qed.

Lemma within_allowed_false self p :
  within_allowed self p = false ↔
  Forall (λ d, ¬ strictly_inside p d) (allowed_dirs self).
Proof.
  rewrite <- not_true_iff_false, within_allowed_true.
  rewrite <- Forall_Exists_neg. done.
Qed.

End parents.

(** ** Running the two methods *)

(** [validate_path], case by case on what the file system answers. *)
Lemma validate_path_run self fp fs :
  validate_path self fp fs =
  match fs_resolve fs fp with
  | Raise e => ([EvResolve fp], Raise e)
  | Return p =>
      if within_allowed self p then
        match fs_exists fs p with
        | Raise e => ([EvResolve fp; EvExists p], Raise e)
        | Return true => ([EvResolve fp; EvExists p], Return p)
        | Return false => ([EvResolve fp; EvExists p], Raise (NotFound p))
        end
      else ([EvResolve fp], Raise (NotAllowed p))
  end.
Proof.
  unfold validate_path, mbind, M_bind, resolve.
  destruct (fs_resolve fs fp) as [p|e]; [|done].
  destruct (within_allowed self p); simpl; [|done].
  unfold exists_. destruct (fs_exists fs p) as [[]|e]; done.
Qed.

(** Inside an allowed directory, the outcome is decided by the existence
    test alone. *)
Lemma validate_path_inside self fp fs p :
  fs_resolve fs fp = Return p ->
  Exists (strictly_inside p) (allowed_dirs self) ->
  validate_path self fp fs =
  match fs_exists fs p with
  | Raise e => ([EvResolve fp; EvExists p], Raise e)
  | Return true => ([EvResolve fp; EvExists p], Return p)
  | Return false => ([EvResolve fp; EvExists p], Raise (NotFound p))
  end.
Proof.
  intros Hres Hin. rewrite validate_path_run, Hres.
  by rewrite (proj2 (within_allowed_true self p) Hin).
Qed.

(** [validate_file], case by case on what [validate_path] does. *)
Lemma validate_file_run self fp fs :
  validate_file self fp fs =
  match validate_path self fp fs with
  | (t, Raise e) =>
      (t ++ [EvLog ERROR "Validation failed: %s" [ArgExn e]],
       Return (ValidationResult_new fp (Some (str_exn e))))
  | (t, Return path) =>
      let ext := Str.lower (PurePath.suffix path) in
      match LANGUAGE_CONFIGS !! ext with
      | None =>
          (t, Return (ValidationResult_new fp (Some (UnsupportedExtension ext))))
      | Some config =>
          (t ++ [EvLog INFO "Validating %s using %s"
                   [ArgPath path; ArgCommand (command config)]],
           Return (ValidationResult_new fp None))
      end
  end.
Proof.
  unfold validate_file, try_except. unfold mbind at 1. unfold M_bind at 1.
  destruct (validate_path self fp fs) as [t [path|e]]; [|done].
  cbv zeta. unfold dict_contains, dict_getitem.
  destruct (LANGUAGE_CONFIGS !! Str.lower (PurePath.suffix path)) as [config|] eqn:Hcfg.
  - rewrite bool_decide_eq_true_2 by eauto. done.
  - rewrite bool_decide_eq_false_2 by (intros [? ?]; done). simpl.
    by rewrite app_nil_r.
Qed.

(** ** The path sandbox: [validate_path] *)

(** C3.  A path whose resolved form is not a proper descendant of any
    allowed directory is refused with the not-allowed error, and before
    the disk is asked whether it exists.  A path is never among its own
    parents, so resolving to an allowed directory itself does not count as
    being inside it. *)
Theorem validate_path_not_allowed self fp fs p :
  fs_resolve fs fp = Return p ->
  Forall (λ d, ¬ strictly_inside p d) (allowed_dirs self) ->
  validate_path self fp fs = ([EvResolve fp], Raise (NotAllowed p))
  ∧ p ∉ PurePath.parents p.
Proof.
  intros Hres Hout. split.
  - rewrite validate_path_run, Hres.
    by rewrite (proj2 (within_allowed_false self p) Hout).
  - rewrite elem_of_parents. apply not_strictly_inside_self.
Qed.

(** The allowed directory [/repo] itself is refused. *)
Lemma validate_path_not_allowed_witness :
  ["repo"] ∈ allowed_dirs repo_server ∧
  validate_path repo_server "/repo" repo_fs
  = ([EvResolve "/repo"], Raise (ValueError "Path not in allowed directories: /repo")).
Proof.
  split; [by left|].
  destruct (validate_path_not_allowed repo_server "/repo" repo_fs ["repo"])
    as [H _]; [reflexivity | compute_done | exact H].
Defined.

(** C4.  A path whose resolved form is a proper descendant of some allowed
    directory and exists on disk is accepted, and what is returned is its
    resolved form. *)
Theorem validate_path_authorized self fp fs p :
  fs_resolve fs fp = Return p ->
  Exists (strictly_inside p) (allowed_dirs self) ->
  fs_exists fs p = Return true ->
  validate_path self fp fs = ([EvResolve fp; EvExists p], Return p).
Proof.
  intros Hres Hin Hex. by rewrite (validate_path_inside _ _ _ _ Hres Hin), Hex.
Qed.

Lemma validate_path_authorized_witness :
  result_of (validate_path repo_server "/repo/src/../src/a.py" repo_fs)
  = Return ["repo"; "src"; "a.py"].
Proof.
  rewrite (validate_path_authorized repo_server "/repo/src/../src/a.py"
             repo_fs ["repo"; "src"; "a.py"]);
    [reflexivity | reflexivity | compute_done | reflexivity].
Defined.

(** C5, as stated, fails: a path that does not exist and lies outside the
    allowed directories is refused as not allowed, not as not found,
    because the containment test comes first. *)
Lemma validate_path_not_found_counterexample :
  fs_resolve repo_fs "/etc/nothere.py" = Return ["etc"; "nothere.py"] ∧
  fs_exists repo_fs ["etc"; "nothere.py"] = Return false ∧
  result_of (validate_path repo_server "/etc/nothere.py" repo_fs)
  = Raise (NotAllowed ["etc"; "nothere.py"]) ∧
  result_of (validate_path repo_server "/etc/nothere.py" repo_fs)
  ≠ Raise (NotFound ["etc"; "nothere.py"]).
Proof. repeat split. discriminate. Qed.

(** C5, amended.  A path whose resolved form is a proper descendant of
    some allowed directory and of which [path.exists()] answers [False] is
    refused with the not-found error. *)
Theorem validate_path_not_found self fp fs p :
  fs_resolve fs fp = Return p ->
  Exists (strictly_inside p) (allowed_dirs self) ->
  fs_exists fs p = Return false ->
  validate_path self fp fs = ([EvResolve fp; EvExists p], Raise (NotFound p)).
Proof.
  intros Hres Hin Hex. by rewrite (validate_path_inside _ _ _ _ Hres Hin), Hex.
Qed.

Lemma validate_path_not_found_witness :
  result_of (validate_path repo_server "/repo/nothere.py" repo_fs)
  = Raise (ValueError "File does not exist: /repo/nothere.py").
Proof.
  rewrite (validate_path_not_found repo_server "/repo/nothere.py"
             repo_fs ["repo"; "nothere.py"]);
    [reflexivity | reflexivity | compute_done | reflexivity].
Defined.

(** The answer of [path.exists()] is what counts: for a name too long to
    be one, inside the allowed directory, the existence test itself
    raises, and [validate_path] fails with that [OSError], not with the
    not-found error. *)
Example validate_path_long_name_raises :
  validate_path repo_server ("/repo/" +:+ repeat_char "a" 300 +:+ ".py")
                limited_fs
  = ([EvResolve ("/repo/" +:+ repeat_char "a" 300 +:+ ".py");
      EvExists ["repo"; repeat_char "a" 300 +:+ ".py"]],
     Raise (OSError ("[Errno 36] File name too long: '/repo/"
                     +:+ repeat_char "a" 300 +:+ ".py'"))).
Proof. vm_compute. reflexivity. Qed.

(** ** The orchestrator: [validate_file] *)

(** C2.  [validate_file] returns a result for every input and raises
    nothing: whatever [validate_path] raises (the path is not allowed, the
    file is not found, the file system itself fails) ends up, as text, in
    the [error] field, and so does an extension without a backend. *)
Theorem validate_file_never_raises self fp fs :
  ∃ r, result_of (validate_file self fp fs) = Return r
     ∧ (∀ e, result_of (validate_path self fp fs) = Raise e ->
             error r = Some (str_exn e))
     ∧ (∀ path, result_of (validate_path self fp fs) = Return path ->
                LANGUAGE_CONFIGS !! Str.lower (PurePath.suffix path) = None ->
                error r = Some (UnsupportedExtension
                                  (Str.lower (PurePath.suffix path)))).
Proof.
  rewrite validate_file_run.
  destruct (validate_path self fp fs) as [t [path|e]]; simpl.
  - destruct (LANGUAGE_CONFIGS !! _) as [config|] eqn:Hcfg;
      eexists; (split; [reflexivity|]); split; intros ? [= <-]; try done.
    by rewrite Hcfg.
  - eexists. split; [reflexivity|]. split; [by intros ? [= <-] | done].
Qed.

Lemma validate_file_never_raises_witness :
  ∃ r, result_of (validate_file repo_server "/etc/passwd" repo_fs) = Return r
     ∧ error r = Some "Path not in allowed directories: /etc/passwd".
Proof.
  destruct (validate_file_never_raises repo_server "/etc/passwd" repo_fs)
    as (r & Hr & Herr & _).
  exists r. split; [exact Hr|]. by apply (Herr (NotAllowed ["etc"; "passwd"])).
Defined.

(** C10.  The [file_path] of the result is the string that was passed in,
    not the resolved path, on every outcome. *)
Theorem validate_file_echoes_file_path self fp fs :
  ∃ r, result_of (validate_file self fp fs) = Return r ∧ file_path r = fp.
Proof.
  rewrite validate_file_run.
  destruct (validate_path self fp fs) as [t [path|e]]; simpl.
  - destruct (LANGUAGE_CONFIGS !! _); by eexists.
  - by eexists.
Qed.

Example validate_file_echoes_unresolved :
  result_of (validate_file repo_server "/repo/src/../src/B.PY" repo_fs)
  = Return {| file_path := "/repo/src/../src/B.PY";
              diagnostics := []; error := None |}.
Proof. reflexivity. Qed.

(** C6.  For an authorized, existing file whose extension has no entry in
    the registry, the result carries a non-empty error and no
    diagnostics. *)
Theorem validate_file_unsupported self fp fs path :
  fs_resolve fs fp = Return path ->
  Exists (strictly_inside path) (allowed_dirs self) ->
  fs_exists fs path = Return true ->
  LANGUAGE_CONFIGS !! Str.lower (PurePath.suffix path) = None ->
  ∃ msg, result_of (validate_file self fp fs)
         = Return {| file_path := fp; diagnostics := []; error := Some msg |}
       ∧ msg ≠ "".
Proof.
  intros Hres Hin Hex Hnone.
  rewrite validate_file_run, (validate_path_inside _ _ _ _ Hres Hin), Hex.
  cbv zeta. rewrite Hnone. eexists. split; [reflexivity | discriminate].
Qed.

Lemma validate_file_unsupported_witness :
  result_of (validate_file repo_server "/repo/README" repo_fs)
  = Return {| file_path := "/repo/README"; diagnostics := [];
              error := Some "Unsupported file type: " |}.
Proof.
  destruct (validate_file_unsupported repo_server "/repo/README" repo_fs
              ["repo"; "README"]) as (msg & Hmsg & _);
    [reflexivity | compute_done | reflexivity | reflexivity |].
  rewrite Hmsg. vm_compute in Hmsg. by injection Hmsg as <-.
Defined.

(** C8.  For an existing file strictly inside an allowed directory whose
    extension is registered, the result is that file path, no diagnostics
    and no error.  No backend is started on the way, so this holds
    whatever a backend would publish. *)
Theorem validate_file_clean self fp fs path config :
  fs_resolve fs fp = Return path ->
  Exists (strictly_inside path) (allowed_dirs self) ->
  fs_exists fs path = Return true ->
  LANGUAGE_CONFIGS !! Str.lower (PurePath.suffix path) = Some config ->
  validate_file self fp fs
  = ([EvResolve fp; EvExists path;
      EvLog INFO "Validating %s using %s"
        [ArgPath path; ArgCommand (command config)]],
     Return {| file_path := fp; diagnostics := []; error := None |}).
Proof.
  intros Hres Hin Hex Hcfg.
  rewrite validate_file_run, (validate_path_inside _ _ _ _ Hres Hin), Hex.
  cbv zeta. by rewrite Hcfg.
Qed.

(** The end-to-end example: allowed directory [/repo], the file
    [/repo/src/a.py], [.py] mapped to [pylsp]. *)
Lemma validate_file_clean_witness :
  LANGUAGE_CONFIGS !! ".py"
  = Some {| command := ["pylsp"]; extensions := [".py"];
            language_id := "python" |} ∧
  result_of (validate_file repo_server "/repo/src/a.py" repo_fs)
  = Return {| file_path := "/repo/src/a.py"; diagnostics := [];
              error := None |}.
Proof.
  split; [reflexivity|].
  rewrite (validate_file_clean repo_server "/repo/src/a.py" repo_fs
             ["repo"; "src"; "a.py"]
             {| command := ["pylsp"]; extensions := [".py"];
                language_id := "python" |});
    [reflexivity | reflexivity | compute_done | reflexivity | reflexivity].
Defined.

(** ** The registry: case-insensitive lookup *)

Lemma lower_ascii_idemp a :
  Str.lower_ascii (Str.lower_ascii a) = Str.lower_ascii a.
Proof. by destruct a as [[] [] [] [] [] [] [] []]. Qed.

(** Lower-casing sends a capital and its small letter to the same
    character. *)
Lemma CASE_PAIRS_lower a b :
  (a, b) ∈ CASE_PAIRS -> Str.lower_ascii a = Str.lower_ascii b.
Proof.
  intros H. cbv [CASE_PAIRS CAPITALS SMALLS list_ascii_of_string zip_with] in H.
  repeat (apply elem_of_cons in H as [[= -> ->]|H]; [reflexivity|]).
  by apply elem_of_nil in H.
Qed.

Lemma same_letter_lower a b :
  same_letter a b -> Str.lower_ascii a = Str.lower_ascii b.
Proof.
  intros [->|[H|H]]; [done | |]; by rewrite (CASE_PAIRS_lower _ _ H).
Qed.

Lemma differs_only_in_case_lower s t :
  differs_only_in_case s t -> Str.lower s = Str.lower t.
Proof.
  induction 1 as [|a b s t Hab _ IH]; simpl; [done|].
  by rewrite (same_letter_lower _ _ Hab), IH.
Qed.

(** Every key of the table is in lower case. *)
Lemma LANGUAGE_CONFIGS_keys_lower e config :
  LANGUAGE_CONFIGS !! e = Some config -> Str.lower e = e.
Proof.
  intros H. apply elem_of_list_to_map_2 in H.
  repeat (apply elem_of_cons in H as [[= -> _]|H]; [reflexivity|]).
  by apply elem_of_nil in H.
Qed.

(** C7.  A file whose extension differs only in letter case from a
    registered extension is given the configuration of that registered
    extension, and is validated with it. *)
Theorem lookup_case_insensitive path e config :
  LANGUAGE_CONFIGS !! e = Some config ->
  differs_only_in_case (PurePath.suffix path) e ->
  dict_getitem LANGUAGE_CONFIGS (Str.lower (PurePath.suffix path))
  = Return config
  ∧ ∀ self fp fs t,
      validate_path self fp fs = (t, Return path) ->
      validate_file self fp fs
      = (t ++ [EvLog INFO "Validating %s using %s"
                 [ArgPath path; ArgCommand (command config)]],
         Return {| file_path := fp; diagnostics := []; error := None |}).
Proof.
  intros Hcfg Hcase.
  assert (LANGUAGE_CONFIGS !! Str.lower (PurePath.suffix path) = Some config)
    as Hlow.
  { rewrite (differs_only_in_case_lower _ _ Hcase).
    by rewrite (LANGUAGE_CONFIGS_keys_lower _ _ Hcfg). }
  split.
  - unfold dict_getitem. by rewrite Hlow.
  - intros self fp fs t Hpath. rewrite validate_file_run, Hpath.
    cbv zeta. by rewrite Hlow.
Qed.

Lemma differs_only_in_case_PY : differs_only_in_case ".PY" ".py".
Proof.
  repeat (constructor;
          [first [by left | right; left; compute_done
                 | right; right; compute_done]|]).
  constructor.
Defined.

(** Another letter is not a matter of case. *)
Example differs_only_in_case_not_pz : ¬ differs_only_in_case ".pz" ".py".
Proof.
  intros H. inversion H as [|? ? ? ? _ H1]; subst.
  inversion H1 as [|? ? ? ? _ H2]; subst.
  inversion H2 as [|? ? ? ? Hzy _]; subst.
  destruct Hzy as [[=]|[Hzy|Hzy]];
    cbv [CASE_PAIRS CAPITALS SMALLS list_ascii_of_string zip_with] in Hzy;
    repeat (apply elem_of_cons in Hzy as [[=]|Hzy]);
    by apply elem_of_nil in Hzy.
Qed.

(** [B.PY] is validated with the configuration registered for [.py]. *)
Lemma lookup_case_insensitive_witness :
  dict_getitem LANGUAGE_CONFIGS (Str.lower (PurePath.suffix ["repo"; "src"; "B.PY"]))
  = dict_getitem LANGUAGE_CONFIGS ".py".
Proof.
  destruct (lookup_case_insensitive ["repo"; "src"; "B.PY"] ".py"
              {| command := ["pylsp"]; extensions := [".py"];
                 language_id := "python" |}) as [H _];
    [reflexivity | exact differs_only_in_case_PY |].
  rewrite H. reflexivity.
Defined.

(** ** The tool-call handler *)

(** C9.  A call of [validate] without arguments, or with arguments that
    lack [file_path], is rejected at once: whatever the [validate_file]
    method would do, it is not reached, and the trace stays empty (the
    file system is not consulted, nothing is logged). *)
Theorem call_tool_missing_argument
    (validate_file_method : json -> M ValidationResult) request fs :
  name (params request) = "validate" ->
  (arguments (params request) = None
   ∨ ∃ d, arguments (params request) = Some d ∧ d !! "file_path" = None) ->
  handle_call_tool validate_file_method request fs
  = ([], Raise (ValueError "Missing required argument: file_path")).
Proof.
  intros Hname Hargs. unfold handle_call_tool. rewrite Hname.
  rewrite bool_decide_eq_true_2 by done. cbn [negb].
  destruct Hargs as [-> | (d & -> & Hd)]; [done|].
  unfold dict_contains, default; cbn [from_option id]. rewrite Hd.
  rewrite (bool_decide_eq_false_2 (is_Some None)) by (intros [? ?]; done).
  cbn [negb]. by rewrite orb_true_r.
Qed.

Lemma call_tool_missing_argument_witness :
  server_call_tool repo_server
    {| params := {| name := "validate"; arguments := None |} |} repo_fs
  = ([], Raise (ValueError "Missing required argument: file_path")) ∧
  server_call_tool repo_server
    {| params := {| name := "validate";
                    arguments := Some {[ "path" := JString "/repo/src/a.py" ]} |} |}
    repo_fs
  = ([], Raise (ValueError "Missing required argument: file_path")).
Proof.
  split; apply call_tool_missing_argument; [reflexivity | by left | reflexivity |].
  right. eexists. split; reflexivity.
Defined.

(** With [file_path] present the method is reached. *)
Example call_tool_reaches_validate_file :
  server_call_tool repo_server
    {| params := {| name := "validate";
                    arguments := Some {[ "file_path" := JString "/repo/src/a.py" ]} |} |}
    repo_fs
  = ([EvResolve "/repo/src/a.py"; EvExists ["repo"; "src"; "a.py"];
      EvLog INFO "Validating %s using %s"
        [ArgPath ["repo"; "src"; "a.py"]; ArgCommand ["pylsp"]]],
     Return {| content :=
       [{| type_ := "text";
           text := "Validation results for /repo/src/a.py:" +:+ nl
                   +:+ "No issues found" +:+ nl |}] |}).
Proof. reflexivity. Qed.

(** *** Severity labels *)

(** The documented severities get the documented labels. *)
Lemma severity_label_documented :
  severity_label 1 = Return "Error" ∧ severity_label 2 = Return "Warning" ∧
  severity_label 3 = Return "Info" ∧ severity_label 4 = Return "Hint".
Proof. by repeat split. Qed.

(** Severities [-3 .. 0] give a negative index, which counts from the end
    of the list. *)
Lemma severity_label_wraps sev :
  -3 <= sev <= 0 -> severity_label sev = severity_label (sev + 4).
Proof.
  intros H.
  assert (sev = -3 ∨ sev = -2 ∨ sev = -1 ∨ sev = 0) as Hs by lia.
  by destruct Hs as [->|[->|[->| ->]]].
Qed.



(** C1 fails on the code.  A diagnostic of severity 0 is not reported as
    invalid: its index [-1] wraps to the last label and the handler answers
    with a line that calls it a hint. *)
Theorem severity_zero_labelled_hint :
  severity_label 0 = Return "Hint" ∧
  ∀ fs,
    handle_call_tool
      (reports {| message := "X"; severity := 0; line := 3; column := 0;
                  source := None |})
      (validate_request "/repo/src/a.py") fs
    = ([], Return {| content :=
         [{| type_ := "text";
             text := "Validation results for /repo/src/a.py:" +:+ nl +:+ nl
                     +:+ "Diagnostics:" +:+ nl
                     +:+ "â€¢ Hint at line 3, column 0: X" +:+ nl |}] |}).
Proof. split; [reflexivity | intros fs; reflexivity]. Qed.

(** A diagnostic of severity 5 makes the handler raise the [IndexError] of
    the list access. *)
Example severity_five_raises fs :
  handle_call_tool
    (reports {| message := "X"; severity := 5; line := 3; column := 0;
                source := None |})
    (validate_request "/repo/src/a.py") fs
  = ([], Raise (IndexError "list index out of range")).
Proof. reflexivity. Qed.

(** * Further properties of the code *)

(** ** More on [validate_path] *)

Lemma validate_path_Return_inv self fp fs p :
  result_of (validate_path self fp fs) = Return p ->
  fs_resolve fs fp = Return p
  ∧ Exists (strictly_inside p) (allowed_dirs self)
  ∧ fs_exists fs p = Return true.
Proof.
  rewrite validate_path_run.
  destruct (fs_resolve fs fp) as [q|e]; [|discriminate].
  destruct (within_allowed self q) eqn:Hin; [|discriminate].
  apply within_allowed_true in Hin.
  destruct (fs_exists fs q) as [[]|e] eqn:Hex; try discriminate.
  unfold result_of; simpl. by intros [= <-].
Qed.

(** Whatever [validate_path] returns is the resolved form of its input,
    lies strictly inside an allowed directory and exists; the file system
    was asked exactly twice, to resolve and to test existence. *)
Theorem validate_path_sound self fp fs p :
  result_of (validate_path self fp fs) = Return p ->
  fs_resolve fs fp = Return p
  ∧ Exists (strictly_inside p) (allowed_dirs self)
  ∧ fs_exists fs p = Return true
  ∧ validate_path self fp fs = ([EvResolve fp; EvExists p], Return p).
Proof.
  intros Hret.
  destruct (validate_path_Return_inv _ _ _ _ Hret) as (Hres & Hin & Hex).
  repeat split; try done.
  by rewrite (validate_path_inside _ _ _ _ Hres Hin), Hex.
Qed.

Lemma validate_path_sound_witness :
  fs_resolve repo_fs "src/../../../repo/src/a.py" = Return ["repo"; "src"; "a.py"]
  ∧ Exists (strictly_inside ["repo"; "src"; "a.py"]) (allowed_dirs repo_server)
  ∧ fs_exists repo_fs ["repo"; "src"; "a.py"] = Return true.
Proof.
  destruct (validate_path_sound repo_server "src/../../../repo/src/a.py"
              repo_fs ["repo"; "src"; "a.py"] eq_refl) as (H1 & H2 & H3 & _).
  by repeat split.
Defined.

(** An exception of the file system, from [resolve] or from [exists],
    leaves [validate_path] as it is. *)
Theorem validate_path_propagates self fp fs e :
  fs_resolve fs fp = Raise e
  ∨ (∃ p, fs_resolve fs fp = Return p
        ∧ Exists (strictly_inside p) (allowed_dirs self)
        ∧ fs_exists fs p = Raise e) ->
  result_of (validate_path self fp fs) = Raise e.
Proof.
  intros [Hres | (p & Hres & Hin & Hex)].
  - by rewrite validate_path_run, Hres.
  - by rewrite (validate_path_inside _ _ _ _ Hres Hin), Hex.
Qed.

Lemma validate_path_propagates_witness :
  result_of (validate_path repo_server "/repo/a.py" looping_fs)
  = Raise (RuntimeError "Symlink loop from '/repo/a.py'").
Proof. apply validate_path_propagates. by left. Defined.

(** Allowing more directories never takes an accepted path away. *)
Theorem validate_path_mono self self' fp fs p :
  allowed_dirs self ⊆ allowed_dirs self' ->
  result_of (validate_path self fp fs) = Return p ->
  validate_path self' fp fs = validate_path self fp fs.
Proof.
  intros Hsub Hret.
  apply validate_path_Return_inv in Hret as (Hres & Hin & Hex).
  assert (Exists (strictly_inside p) (allowed_dirs self')) as Hin'.
  { apply Exists_exists in Hin as (d & Hd & Hpd).
    apply Exists_exists. exists d. split; [by apply Hsub | done]. }
  by rewrite (validate_path_inside self' _ _ _ Hres Hin'),
             (validate_path_inside self _ _ _ Hres Hin).
Qed.

Lemma validate_path_mono_witness :
  result_of (validate_path {| allowed_dirs := [["etc"]; ["repo"]] |}
                           "/repo/src/a.py" repo_fs)
  = Return ["repo"; "src"; "a.py"].
Proof.
  rewrite (validate_path_mono repo_server {| allowed_dirs := [["etc"]; ["repo"]] |}
             "/repo/src/a.py" repo_fs ["repo"; "src"; "a.py"]);
    [reflexivity | intros d Hd; right; exact Hd | reflexivity].
Defined.

(** Two inputs with the same resolved form are judged alike: the results
    of [validate_file] differ in nothing but the echoed [file_path]. *)
Theorem validate_file_same_resolved self a b fs ra rb :
  fs_resolve fs a = fs_resolve fs b ->
  result_of (validate_file self a fs) = Return ra ->
  result_of (validate_file self b fs) = Return rb ->
  error ra = error rb ∧ diagnostics ra = diagnostics rb.
Proof.
  rewrite !validate_file_run, !validate_path_run. intros ->.
  destruct (fs_resolve fs b) as [p|e].
  - destruct (within_allowed self p).
    + destruct (fs_exists fs p) as [[]|e]; cbv zeta;
        try destruct (LANGUAGE_CONFIGS !! _);
        by intros [= <-] [= <-].
    + by intros [= <-] [= <-].
  - by intros [= <-] [= <-].
Qed.

Lemma validate_file_same_resolved_witness :
  ∃ ra rb,
    result_of (validate_file repo_server "/repo/./nothere.py" repo_fs) = Return ra
    ∧ result_of (validate_file repo_server "/repo/src/../nothere.py" repo_fs)
      = Return rb
    ∧ error ra = Some "File does not exist: /repo/nothere.py"
    ∧ error ra = error rb.
Proof.
  eexists _, _. split; [reflexivity|]. split; [reflexivity|].
  split; [reflexivity|].
  eapply (validate_file_same_resolved repo_server "/repo/./nothere.py"
            "/repo/src/../nothere.py" repo_fs); reflexivity.
Defined.

(** ** [LanguageServer.__init__] *)

(** One step of sequencing. *)
Lemma bind_run {A B : Type} (m : M A) (f : A -> M B) fs :
  (m ≫= f) fs =
  match m fs with
  | (t, Return a) => let '(t', r) := f a fs in (t ++ t', r)
  | (t, Raise e) => (t, Raise e)
  end.
Proof. reflexivity. Qed.

Lemma mapM_resolve_ok fs dirs ps :
  Forall2 (λ d p, fs_resolve fs d = Return p) dirs ps ->
  mapM resolve dirs fs = (EvResolve <$> dirs, Return ps).
Proof.
  induction 1 as [|d p dirs ps Hd _ IH]; [done|].
  cbn [mapM]. rewrite bind_run. unfold resolve at 1. rewrite Hd.
  rewrite bind_run, IH. simpl. by rewrite app_nil_r.
Qed.

Lemma mapM_resolve_inv fs dirs ps :
  result_of (mapM resolve dirs fs) = Return ps ->
  Forall2 (λ d p, fs_resolve fs d = Return p) dirs ps.
Proof.
  revert ps. induction dirs as [|d dirs IH]; intros ps.
  - intros [= <-]. constructor.
  - cbn [mapM]. rewrite bind_run. unfold resolve at 1.
    destruct (fs_resolve fs d) as [p|e] eqn:Hd; [|discriminate].
    rewrite bind_run.
    destruct (mapM resolve dirs fs) as [t [qs|e]] eqn:Hrest; [|discriminate].
    unfold result_of; simpl. intros [= <-].
    constructor; [done|]. by apply IH.
Qed.

Lemma mapM_resolve_fails fs good bad rest ps e :
  Forall2 (λ d p, fs_resolve fs d = Return p) good ps ->
  fs_resolve fs bad = Raise e ->
  mapM resolve (good ++ bad :: rest) fs
  = ((EvResolve <$> good) ++ [EvResolve bad], Raise e).
Proof.
  intros Hgood Hbad.
  induction Hgood as [|d p good ps Hd _ IH]; cbn [mapM app].
  - rewrite bind_run. unfold resolve at 1. by rewrite Hbad.
  - rewrite bind_run. unfold resolve at 1. rewrite Hd.
    by rewrite bind_run, IH.
Qed.

(** When every directory resolves, the server is built with the resolved
    forms, in the order given; each directory is resolved once and the
    list is logged. *)
Theorem LanguageServer_init_ok fs dirs ps :
  Forall2 (λ d p, fs_resolve fs d = Return p) dirs ps ->
  LanguageServer_init dirs fs
  = ((EvResolve <$> dirs) ++ [EvLog INFO "Allowed directories: %s" [ArgPaths ps]],
     Return {| allowed_dirs := ps |}).
Proof.
  intros H. unfold LanguageServer_init.
  rewrite bind_run, (mapM_resolve_ok _ _ _ H). done.
Qed.

Lemma LanguageServer_init_ok_witness :
  result_of (LanguageServer_init ["/repo"; "/etc/../etc"; "work"] repo_fs)
  = Return {| allowed_dirs := [["repo"]; ["etc"]; ["home"; "user"; "work"]] |}.
Proof.
  rewrite (LanguageServer_init_ok repo_fs ["/repo"; "/etc/../etc"; "work"]
             [["repo"]; ["etc"]; ["home"; "user"; "work"]]); [reflexivity|].
  repeat constructor.
Defined.

(** The first directory that fails to resolve aborts the construction with
    its exception: the directories after it are not looked at and nothing
    is logged. *)
Theorem LanguageServer_init_fails fs good bad rest ps e :
  Forall2 (λ d p, fs_resolve fs d = Return p) good ps ->
  fs_resolve fs bad = Raise e ->
  LanguageServer_init (good ++ bad :: rest) fs
  = ((EvResolve <$> good) ++ [EvResolve bad], Raise e).
Proof.
  intros Hgood Hbad. unfold LanguageServer_init.
  by rewrite bind_run, (mapM_resolve_fails _ _ _ _ _ _ Hgood Hbad).
Qed.

Lemma LanguageServer_init_fails_witness :
  LanguageServer_init ["/loop"; "/repo"] looping_fs
  = ([EvResolve "/loop"], Raise (RuntimeError "Symlink loop from '/loop'")).
Proof.
  apply (LanguageServer_init_fails looping_fs [] "/loop" ["/repo"] []);
    [constructor | reflexivity].
Defined.

(** From the command line to an accepted path: whatever a server built by
    [__init__] accepts lies strictly below the resolved form of one of the
    directories it was given. *)
Theorem init_then_validate_path_sound fs dirs self fp p :
  result_of (LanguageServer_init dirs fs) = Return self ->
  result_of (validate_path self fp fs) = Return p ->
  ∃ d q, d ∈ dirs ∧ fs_resolve fs d = Return q ∧ strictly_inside p q.
Proof.
  intros Hinit Hpath.
  assert (Forall2 (λ d q, fs_resolve fs d = Return q) dirs (allowed_dirs self))
    as Hdirs.
  { apply mapM_resolve_inv. revert Hinit. unfold LanguageServer_init.
    rewrite bind_run.
    destruct (mapM resolve dirs fs) as [t [qs|e]]; [|discriminate].
    unfold result_of; simpl. by intros [= <-]. }
  apply validate_path_Return_inv in Hpath as (_ & Hin & _).
  apply Exists_exists in Hin as (q & Hq & Hpq).
  apply list_elem_of_lookup in Hq as [i Hi].
  destruct (Forall2_lookup_r _ _ _ _ _ Hdirs Hi) as (d & Hd & Hres).
  exists d, q. split; [|done]. apply list_elem_of_lookup. by exists i.
Qed.

Lemma init_then_validate_path_sound_witness :
  ∃ d q, d ∈ ["/etc"; "/repo/src/.."]
       ∧ fs_resolve repo_fs d = Return q
       ∧ strictly_inside ["repo"; "src"; "a.py"] q.
Proof.
  apply (init_then_validate_path_sound repo_fs ["/etc"; "/repo/src/.."]
           {| allowed_dirs := [["etc"]; ["repo"]] |} "/repo/src/a.py");
    reflexivity.
Defined.

(** ** More on [validate_file] *)

(** The result never carries a diagnostic, and it is free of error exactly
    when the path was accepted and its extension is registered. *)
Theorem validate_file_succeeds_iff self fp fs r :
  result_of (validate_file self fp fs) = Return r ->
  diagnostics r = []
  ∧ (error r = None ↔
     ∃ path config,
       result_of (validate_path self fp fs) = Return path
       ∧ LANGUAGE_CONFIGS !! Str.lower (PurePath.suffix path) = Some config).
Proof.
  rewrite validate_file_run.
  destruct (validate_path self fp fs) as [t [path|e]]; cbv zeta.
  - destruct (LANGUAGE_CONFIGS !! _) as [config|] eqn:Hcfg; intros [= <-];
      (split; [done|]); simpl.
    + split; [intros _; by exists path, config | done].
    + split; [done|]. intros (path' & config & [= <-] & Hcfg').
      by rewrite Hcfg in Hcfg'.
  - intros [= <-]. split; [done|]. split; [done|].
    by intros (path & config & [=] & _).
Qed.

Lemma validate_file_succeeds_iff_witness :
  ∃ config,
    LANGUAGE_CONFIGS !! Str.lower (PurePath.suffix ["repo"; "src"; "B.PY"])
    = Some config.
Proof.
  destruct (validate_file_succeeds_iff repo_server "/repo/src/B.PY" repo_fs
              {| file_path := "/repo/src/B.PY"; diagnostics := [];
                 error := None |} eq_refl) as [_ [H _]].
  destruct (H eq_refl) as (path & config & [= <-] & Hcfg).
  by exists config.
Defined.

(** What [validate_file] adds to the trace of [validate_path]: the
    exception it captures, logged as an error; the command of the backend
    it selects, logged as information; nothing for an unsupported
    extension.  It never consults the file system itself. *)
Theorem validate_file_trace self fp fs :
  (validate_file self fp fs).1 =
  (validate_path self fp fs).1 ++
  match result_of (validate_path self fp fs) with
  | Raise e => [EvLog ERROR "Validation failed: %s" [ArgExn e]]
  | Return path =>
      match LANGUAGE_CONFIGS !! Str.lower (PurePath.suffix path) with
      | Some config =>
          [EvLog INFO "Validating %s using %s"
             [ArgPath path; ArgCommand (command config)]]
      | None => []
      end
  end.
Proof.
  rewrite validate_file_run.
  destruct (validate_path self fp fs) as [t [path|e]];
    unfold result_of; cbn [fst snd]; cbv zeta; [|done].
  destruct (LANGUAGE_CONFIGS !! _); cbn [fst]; [done|]. by rewrite app_nil_r.
Qed.

(** ** More on the registry *)

Lemma len_app s t : Str.len (s +:+ t) = Str.len s + Str.len t.
Proof.
  unfold Str.len. induction s as [|a s IH]; simpl String.length; [done|].
  simpl in IH. lia.
Qed.

Lemma rfind_from_app c s t i acc :
  Str.rfind_from c (s +:+ t) i acc
  = Str.rfind_from c t (i + Str.len s) (Str.rfind_from c s i acc).
Proof.
  revert i acc. induction s as [|a s IH]; intros i acc; simpl.
  - unfold Str.len. simpl. by rewrite Z.add_0_r.
  - rewrite IH. f_equal. unfold Str.len. simpl String.length. lia.
Qed.

Lemma rfind_from_absent c s i acc :
  has_char c s = false -> Str.rfind_from c s i acc = acc.
Proof.
  revert i acc. induction s as [|a s IH]; intros i acc; simpl; [done|].
  intros [Ha Hs]%orb_false_iff. rewrite Ha. by apply IH.
Qed.

Lemma drop_app_length s t : Str.drop (String.length s) (s +:+ t) = t.
Proof. by induction s. Qed.

(** The suffix of a name made of a non-empty stem and a simple extension
    is that extension. *)
Lemma suffix_stem_extension dir stem e :
  stem ≠ "" -> simple_extension e ->
  PurePath.suffix (dir ++ [stem +:+ e]) = e.
Proof.
  intros Hstem (rest & -> & Hrest & Hdot).
  unfold PurePath.suffix, PurePath.name. rewrite last_last.
  unfold Str.rfind. rewrite rfind_from_app. cbn [Str.rfind_from].
  rewrite Ascii.eqb_refl, (rfind_from_absent _ _ _ _ Hdot), Z.add_0_l.
  rewrite len_app.
  assert (0 < Str.len stem) as Hpos.
  { destruct stem; [done|]. unfold Str.len. simpl String.length. lia. }
  assert (2 <= Str.len (String "." rest)) as Hlen.
  { destruct rest; [done|]. unfold Str.len. simpl String.length. lia. }
  rewrite (proj2 (Z.ltb_lt _ _) Hpos), (proj2 (Z.ltb_lt _ _)) by lia.
  cbn [andb]. unfold Str.slice_from, Str.len. rewrite Nat2Z.id.
  apply drop_app_length.
Qed.

(** The suffix of a name that is nothing but a simple extension is
    empty. *)
Lemma suffix_bare_extension dir e :
  simple_extension e -> PurePath.suffix (dir ++ [e]) = "".
Proof.
  intros (rest & -> & _ & Hdot).
  unfold PurePath.suffix, PurePath.name. rewrite last_last.
  unfold Str.rfind. cbn [Str.rfind_from].
  by rewrite Ascii.eqb_refl, (rfind_from_absent _ _ _ _ Hdot).
Qed.

(** Every key of the table is a simple extension. *)
Lemma LANGUAGE_CONFIGS_keys_simple e config :
  LANGUAGE_CONFIGS !! e = Some config -> simple_extension e.
Proof.
  intros H. apply elem_of_list_to_map_2 in H.
  repeat (apply elem_of_cons in H as [[= -> _]|H];
          [eexists; split; [reflexivity|]; by split|]).
  by apply elem_of_nil in H.
Qed.

(** Every registered extension can be reached: a file whose name is a
    non-empty stem followed by a registered extension is given that
    extension's configuration. *)
Theorem registered_extension_selectable e config dir stem :
  LANGUAGE_CONFIGS !! e = Some config ->
  stem ≠ "" ->
  dict_getitem LANGUAGE_CONFIGS
    (Str.lower (PurePath.suffix (dir ++ [stem +:+ e]))) = Return config.
Proof.
  intros Hcfg Hstem.
  rewrite (suffix_stem_extension _ _ _ Hstem (LANGUAGE_CONFIGS_keys_simple _ _ Hcfg)).
  rewrite (LANGUAGE_CONFIGS_keys_lower _ _ Hcfg).
  unfold dict_getitem. by rewrite Hcfg.
Qed.

Lemma registered_extension_selectable_witness :
  dict_getitem LANGUAGE_CONFIGS
    (Str.lower (PurePath.suffix ["repo"; "web"; "App.test.tsx"]))
  = Return {| command := ["typescript-language-server"; "--stdio"];
              extensions := [".ts"; ".tsx"];
              language_id := "typescriptreact" |}.
Proof.
  apply (registered_extension_selectable ".tsx" _ ["repo"; "web"] "App.test");
    [reflexivity | discriminate].
Defined.

(** A hidden file whose whole name is a registered extension, such as
    [.py], has no suffix and is reported as an unsupported file type. *)
Theorem bare_extension_unsupported self fp fs dir e config :
  LANGUAGE_CONFIGS !! e = Some config ->
  fs_resolve fs fp = Return (dir ++ [e]) ->
  Exists (strictly_inside (dir ++ [e])) (allowed_dirs self) ->
  fs_exists fs (dir ++ [e]) = Return true ->
  result_of (validate_file self fp fs)
  = Return {| file_path := fp; diagnostics := [];
              error := Some "Unsupported file type: " |}.
Proof.
  intros Hcfg Hres Hin Hex.
  rewrite validate_file_run, (validate_path_inside _ _ _ _ Hres Hin), Hex.
  cbv zeta.
  by rewrite (suffix_bare_extension _ _ (LANGUAGE_CONFIGS_keys_simple _ _ Hcfg)).
Qed.

Lemma bare_extension_unsupported_witness :
  result_of (validate_file repo_server "/repo/.py" dotfile_fs)
  = Return {| file_path := "/repo/.py"; diagnostics := [];
              error := Some "Unsupported file type: " |}.
Proof.
  apply (bare_extension_unsupported repo_server "/repo/.py" dotfile_fs
           ["repo"] ".py"
           {| command := ["pylsp"]; extensions := [".py"];
              language_id := "python" |});
    [reflexivity | reflexivity | compute_done | reflexivity].
Defined.

(** The table is closed and consistent: a key is among the extensions its
    configuration lists, the command is not empty, and every extension a
    configuration lists is itself a key, with the same command and the
    same list. *)
Theorem LANGUAGE_CONFIGS_consistent e config :
  LANGUAGE_CONFIGS !! e = Some config ->
  e ∈ extensions config
  ∧ command config ≠ []
  ∧ ∀ e', e' ∈ extensions config ->
          ∃ config', LANGUAGE_CONFIGS !! e' = Some config'
                   ∧ command config' = command config
                   ∧ extensions config' = extensions config.
Proof.
  intros H. apply elem_of_list_to_map_2 in H.
  repeat (apply elem_of_cons in H as [[= -> ->]|H];
    [ split; [cbn; set_solver|]; split; [done|];
      intros e' He'; cbn in He';
      repeat (apply elem_of_cons in He' as [->|He']; [by eexists|]);
      by apply elem_of_nil in He' |]).
  by apply elem_of_nil in H.
Qed.

Lemma LANGUAGE_CONFIGS_consistent_witness :
  ∃ config', LANGUAGE_CONFIGS !! ".jsx" = Some config'
           ∧ command config' = ["typescript-language-server"; "--stdio"].
Proof.
  destruct (LANGUAGE_CONFIGS_consistent ".js"
              {| command := ["typescript-language-server"; "--stdio"];
                 extensions := [".js"; ".jsx"];
                 language_id := "javascript" |} eq_refl) as (_ & _ & H).
  destruct (H ".jsx") as (config' & Hcfg & Hcmd & _); [cbn; set_solver|].
  exists config'. by split.
Defined.

(** ** More on the tool-call handler *)

Lemma string_app_assoc s t u : (s +:+ t) +:+ u = s +:+ t +:+ u.
Proof.
  induction s as [|a s IH]; [done|].
  change (String a ((s +:+ t) +:+ u) = String a (s +:+ t +:+ u)).
  by f_equal.
Qed.

Lemma string_app_empty_r s : s +:+ "" = s.
Proof.
  induction s as [|a s IH]; [done|].
  change (String a (s +:+ "") = String a s). by f_equal.
Qed.


(** One turn of the loop. *)
Lemma format_diagnostics_cons text diag rest fs :
  format_diagnostics text (diag :: rest) fs =
  match severity_label (severity diag) with
  | Return label =>
      format_diagnostics (text +:+ diagnostic_lines label diag) rest fs
  | Raise e => ([], Raise e)
  end.
Proof.
  cbn [format_diagnostics]. rewrite bind_run. unfold lift.
  destruct (severity_label (severity diag)) as [label|e]; [|done].
  cbv zeta. unfold diagnostic_lines.
  destruct (Str.opt_truthy (source diag)).
  - rewrite !string_app_assoc.
    by destruct (format_diagnostics _ rest fs).
  - rewrite string_app_empty_r.
    by destruct (format_diagnostics _ rest fs).
Qed.

(** The handler without a usable request: nothing is traced. *)
Lemma handle_call_tool_rejected validate_file_method request fs :
  name (params request) ≠ "validate"
  ∨ (∀ d, arguments (params request) = Some d -> d !! "file_path" = None) ->
  (handle_call_tool validate_file_method request fs).1 = [].
Proof.
  intros H. unfold handle_call_tool.
  destruct (decide (name (params request) = "validate")) as [Hname|Hname].
  - destruct H as [H|H]; [done|].
    rewrite bool_decide_eq_true_2 by done. cbn [negb].
    destruct (arguments (params request)) as [d|]; [|done].
    unfold dict_contains, default; cbn [from_option id].
    rewrite (H d eq_refl).
    rewrite (bool_decide_eq_false_2 (is_Some None)) by (intros [? ?]; done).
    cbn [negb]. by rewrite orb_true_r.
  - by rewrite bool_decide_eq_false_2 by done.
Qed.

(** The handler on a usable request, case by case on what the
    [validate_file] method does. *)
Lemma handle_call_tool_run validate_file_method request fs d fp :
  name (params request) = "validate" ->
  arguments (params request) = Some d ->
  d !! "file_path" = Some fp ->
  handle_call_tool validate_file_method request fs =
  match validate_file_method fp fs with
  | (t, Raise e) => (t, Raise e)
  | (t, Return result) =>
      if Str.opt_truthy (error result) then
        (t, Return (text_reply (reply_header (file_path result) +:+ "Error: "
                                +:+ default "" (error result) +:+ nl)))
      else if bool_decide (diagnostics result = []) then
        (t, Return (text_reply (reply_header (file_path result)
                                +:+ "No issues found" +:+ nl)))
      else
        match format_diagnostics
                (reply_header (file_path result) +:+ nl +:+ "Diagnostics:" +:+ nl)
                (diagnostics result) fs with
        | (t', Return text) => (t ++ t', Return (text_reply text))
        | (t', Raise e) => (t ++ t', Raise e)
        end
  end.
Proof.
  intros Hname Hargs Hfp. unfold handle_call_tool. rewrite Hname, Hargs.
  rewrite bool_decide_eq_true_2 by done. cbn [negb arguments_falsy].
  rewrite bool_decide_eq_false_2 by (intros ->; by rewrite lookup_empty in Hfp).
  unfold dict_contains, dict_getitem, default; cbn [from_option id].
  rewrite Hfp. rewrite bool_decide_eq_true_2 by eauto. cbn [negb orb].
  rewrite bind_run. unfold lift. rewrite bind_run.
  destruct (validate_file_method fp fs) as [t [result|e]]; [|done].
  rewrite bind_run. fold (reply_header (file_path result)).
  destruct (Str.opt_truthy (error result)).
  - cbn. by rewrite app_nil_r.
  - destruct (bool_decide (diagnostics result = [])).
    + cbn. by rewrite app_nil_r.
    + destruct (format_diagnostics _ (diagnostics result) fs) as [t' [text|e]];
        [|done].
      cbn. by rewrite app_nil_r.
Qed.

(** A request for any other tool is rejected by name, whatever its
    arguments, before anything else happens. *)
Theorem call_tool_unknown_tool
    (validate_file_method : json -> M ValidationResult) request fs :
  name (params request) ≠ "validate" ->
  handle_call_tool validate_file_method request fs
  = ([], Raise (ValueError ("Unknown tool: " +:+ name (params request)))).
Proof.
  intros Hname. unfold handle_call_tool.
  by rewrite bool_decide_eq_false_2 by done.
Qed.

Lemma call_tool_unknown_tool_witness :
  server_call_tool repo_server
    {| params := {| name := "lint"; arguments := None |} |} repo_fs
  = ([], Raise (ValueError "Unknown tool: lint")).
Proof. apply call_tool_unknown_tool. discriminate. Defined.

(** The handler catches nothing: an exception of the [validate_file]
    method leaves the handler as it is, with the trace so far. *)
Theorem call_tool_propagates
    (validate_file_method : json -> M ValidationResult) request fs d arg t e :
  name (params request) = "validate" ->
  arguments (params request) = Some d ->
  d !! "file_path" = Some arg ->
  validate_file_method arg fs = (t, Raise e) ->
  handle_call_tool validate_file_method request fs = (t, Raise e).
Proof.
  intros Hname Hargs Harg Hm.
  by rewrite (handle_call_tool_run _ _ _ _ _ Hname Hargs Harg), Hm.
Qed.

Lemma call_tool_propagates_witness :
  handle_call_tool (failing (OSError "disk")) (validate_request "/repo/a.py")
                   repo_fs
  = ([], Raise (OSError "disk")).
Proof.
  by apply (call_tool_propagates _ _ _ {[ "file_path" := JString "/repo/a.py" ]}
              (JString "/repo/a.py")).
Defined.

(** An error comes first: when the result carries a non-empty error the
    reply is the error line alone, whatever diagnostics come with it. *)
Theorem call_tool_error_first
    (validate_file_method : json -> M ValidationResult)
    request fs d arg t result msg :
  name (params request) = "validate" ->
  arguments (params request) = Some d ->
  d !! "file_path" = Some arg ->
  validate_file_method arg fs = (t, Return result) ->
  error result = Some msg -> msg ≠ "" ->
  handle_call_tool validate_file_method request fs
  = (t, Return (text_reply (reply_header (file_path result)
                            +:+ "Error: " +:+ msg +:+ nl))).
Proof.
  intros Hname Hargs Harg Hm Herr Hmsg.
  rewrite (handle_call_tool_run _ _ _ _ _ Hname Hargs Harg), Hm, Herr.
  by destruct msg.
Qed.

Lemma call_tool_error_first_witness :
  handle_call_tool
    (fun arg => mret {| file_path := json_text arg;
                        diagnostics := [{| message := "X"; severity := 9;
                                           line := 0; column := 0;
                                           source := None |}];
                        error := Some "backend died" |})
    (validate_request "a.py") repo_fs
  = ([], Return (text_reply ("Validation results for a.py:" +:+ nl
                             +:+ "Error: backend died" +:+ nl))).
Proof.
  by apply (call_tool_error_first _ _ _ {[ "file_path" := JString "a.py" ]}
              (JString "a.py") []
              {| file_path := "a.py";
                 diagnostics := [{| message := "X"; severity := 9;
                                    line := 0; column := 0;
                                    source := None |}];
                 error := Some "backend died" |} "backend died").
Defined.

(** An empty error string counts as no error: a result without
    diagnostics whose error is [None] or [""] is answered with
    "No issues found". *)
Theorem call_tool_blank_error
    (validate_file_method : json -> M ValidationResult)
    request fs d arg t result :
  name (params request) = "validate" ->
  arguments (params request) = Some d ->
  d !! "file_path" = Some arg ->
  validate_file_method arg fs = (t, Return result) ->
  error result = None ∨ error result = Some "" ->
  diagnostics result = [] ->
  handle_call_tool validate_file_method request fs
  = (t, Return (text_reply (reply_header (file_path result)
                            +:+ "No issues found" +:+ nl))).
Proof.
  intros Hname Hargs Harg Hm Herr Hdiag.
  rewrite (handle_call_tool_run _ _ _ _ _ Hname Hargs Harg), Hm, Hdiag.
  by destruct Herr as [-> | ->].
Qed.

(** A failure whose exception has no text is answered as a success. *)
Lemma call_tool_blank_error_witness :
  server_call_tool repo_server (validate_request "/repo/a.py")
    {| fs_resolve := fun _ => Raise (RuntimeError "");
       fs_exists := fun _ => Return true |}
  = ([EvResolve "/repo/a.py";
      EvLog ERROR "Validation failed: %s" [ArgExn (RuntimeError "")]],
     Return (text_reply ("Validation results for /repo/a.py:" +:+ nl
                         +:+ "No issues found" +:+ nl))).
Proof.
  apply (call_tool_blank_error _ _ _ {[ "file_path" := JString "/repo/a.py" ]}
           (JString "/repo/a.py") _ {| file_path := "/repo/a.py"; diagnostics := [];
                             error := Some "" |});
    try reflexivity.
  by right.
Defined.

(** *** The loop over the diagnostics *)





(** The loop only appends, and what it appends does not depend on the
    text it starts from. *)
Theorem format_diagnostics_appends text diags fs out :
  result_of (format_diagnostics text diags fs) = Return out ->
  ∃ body, out = text +:+ body
        ∧ ∀ text', format_diagnostics text' diags fs
                   = ([], Return (text' +:+ body)).
Proof.
  revert text out. induction diags as [|diag rest IH]; intros text out.
  - intros [= <-]. exists "". split; [by rewrite string_app_empty_r|].
    intros text'. by rewrite string_app_empty_r.
  - rewrite format_diagnostics_cons.
    destruct (severity_label (severity diag)) as [label|e] eqn:Hlabel;
      [|discriminate].
    intros Hout. destruct (IH _ _ Hout) as (body & -> & Hbody).
    exists (diagnostic_lines label diag +:+ body).
    split; [by rewrite string_app_assoc|].
    intros text'. rewrite format_diagnostics_cons, Hlabel, Hbody.
    by rewrite string_app_assoc.
Qed.

Lemma format_diagnostics_appends_witness :
  ∃ body,
    ∀ text',
      format_diagnostics text'
        [{| message := "X"; severity := 1; line := 3; column := 0;
            source := Some "pyflakes" |}] repo_fs
      = ([], Return (text' +:+ body)).
Proof.
  destruct (format_diagnostics_appends ""
              [{| message := "X"; severity := 1; line := 3; column := 0;
                  source := Some "pyflakes" |}] repo_fs _ eq_refl)
    as (body & _ & Hbody).
  by exists body.
Defined.

(** *** The handler of the server as it is *)

(** Every result of [validate_file] has this shape. *)
Lemma validate_file_shape self fp fs :
  ∃ t err, validate_file self fp fs
           = (t, Return {| file_path := fp; diagnostics := []; error := err |}).
Proof.
  rewrite validate_file_run.
  destruct (validate_path self fp fs) as [t [path|e]]; cbv zeta.
  - destruct (LANGUAGE_CONFIGS !! _); by eexists _, _.
  - by eexists _, _.
Qed.

(** What the method does with an argument that is not a string: the
    [TypeError] of [Path] is logged and the [ValidationError] of the
    result model leaves it. *)
Lemma validate_file_any_not_str self arg fs :
  (∀ s, arg ≠ JString s) ->
  validate_file_any self arg fs
  = ([EvLog ERROR "Validation failed: %s"
        [ArgExn (TypeError ("expected str, bytes or os.PathLike object, not "
                            +:+ type_name arg))]],
     Raise (ValidationError "ValidationResult" [("file_path", "string_type")])).
Proof. intros H. destruct arg; try done. by destruct (H s). Qed.

(** On a request that carries [file_path], the handler of the server
    answers whenever the argument is a string: one text item that starts
    with the path as it was passed in and goes on with the error line or
    with "No issues found"; the list of diagnostics is never shown.  When
    the argument is any other JSON value, nothing is resolved and the
    [ValidationError] of the result model leaves the handler. *)
Theorem server_call_tool_reply ls request fs d arg :
  name (params request) = "validate" ->
  arguments (params request) = Some d ->
  d !! "file_path" = Some arg ->
  match arg with
  | JString fp =>
      ∃ t r,
        validate_file ls fp fs = (t, Return r)
        ∧ server_call_tool ls request fs
          = (t, Return (text_reply
               (reply_header fp +:+
                match error r with
                | Some (String c msg) => "Error: " +:+ String c msg +:+ nl
                | _ => "No issues found" +:+ nl
                end)))
  | _ =>
      server_call_tool ls request fs
      = ([EvLog ERROR "Validation failed: %s"
            [ArgExn (TypeError ("expected str, bytes or os.PathLike object, not "
                                +:+ type_name arg))]],
         Raise (ValidationError "ValidationResult"
                                [("file_path", "string_type")]))
  end.
Proof.
  intros Hname Hargs Harg. unfold server_call_tool.
  rewrite (handle_call_tool_run _ _ _ _ _ Hname Hargs Harg).
  destruct arg as [| | | |fp| |];
    try (by rewrite validate_file_any_not_str by done).
  cbn [validate_file_any].
  destruct (validate_file_shape ls fp fs) as (t & err & ->).
  eexists _, _. split; [reflexivity|].
  by destruct err as [[|c msg]|].
Qed.

Lemma server_call_tool_reply_witness :
  server_call_tool repo_server
    {| params := {| name := "validate";
                    arguments := Some {[ "file_path" := JString "/etc/passwd";
                                         "fix" := JBool true ]} |} |} repo_fs
  = ([EvResolve "/etc/passwd";
      EvLog ERROR "Validation failed: %s"
        [ArgExn (ValueError "Path not in allowed directories: /etc/passwd")]],
     Return (text_reply
       ("Validation results for /etc/passwd:" +:+ nl
        +:+ "Error: Path not in allowed directories: /etc/passwd" +:+ nl)))
  ∧ server_call_tool repo_server
      {| params := {| name := "validate";
                      arguments := Some {[ "file_path" := JInt 123 ]} |} |}
      repo_fs
    = ([EvLog ERROR "Validation failed: %s"
          [ArgExn (TypeError "expected str, bytes or os.PathLike object, not int")]],
       Raise (ValidationError "ValidationResult"
                              [("file_path", "string_type")])).
Proof.
  split.
  - destruct (server_call_tool_reply repo_server
                {| params := {| name := "validate";
                                arguments :=
                                  Some {[ "file_path" := JString "/etc/passwd";
                                          "fix" := JBool true ]} |} |}
                repo_fs _ (JString "/etc/passwd") eq_refl eq_refl)
      as (t & r & Hr & ->); [by vm_compute|].
    vm_compute in Hr. by injection Hr as <- <-.
  - by apply (server_call_tool_reply repo_server _ repo_fs
                {[ "file_path" := JInt 123 ]} (JInt 123)).
Defined.

Lemma validate_path_events self fp fs ev :
  ev ∈ (validate_path self fp fs).1 ->
  ev = EvResolve fp
  ∨ ∃ p, ev = EvExists p
       ∧ fs_resolve fs fp = Return p
       ∧ Exists (strictly_inside p) (allowed_dirs self).
Proof.
  rewrite validate_path_run.
  destruct (fs_resolve fs fp) as [q|e].
  - destruct (within_allowed self q) eqn:Hin.
    + apply within_allowed_true in Hin.
      assert (ev ∈ [EvResolve fp; EvExists q] ->
              ev = EvResolve fp
              ∨ ∃ p, ev = EvExists p ∧ Return q = Return p
                   ∧ Exists (strictly_inside p) (allowed_dirs self)) as Hev.
      { intros H. apply elem_of_cons in H as [->|H]; [by left|].
        apply elem_of_cons in H as [->|H]; [|by apply elem_of_nil in H].
        right. by exists q. }
      by destruct (fs_exists fs q) as [[]|e]; cbn [fst].
    + cbn [fst]. intros H. apply elem_of_cons in H as [->|H]; [by left|].
      by apply elem_of_nil in H.
  - cbn [fst]. intros H. apply elem_of_cons in H as [->|H]; [by left|].
    by apply elem_of_nil in H.
Qed.

Lemma validate_file_events self fp fs ev :
  ev ∈ (validate_file self fp fs).1 ->
  ev ∈ (validate_path self fp fs).1
  ∨ ∃ level fmt args, ev = EvLog level fmt args.
Proof.
  rewrite validate_file_run.
  destruct (validate_path self fp fs) as [t [path|e]]; cbv zeta.
  - destruct (LANGUAGE_CONFIGS !! _); cbn [fst]; [|by left].
    intros H. apply elem_of_app in H as [H|H]; [by left|].
    apply elem_of_cons in H as [->|H]; [|by apply elem_of_nil in H].
    right. by eexists _, _, _.
  - cbn [fst]. intros H. apply elem_of_app in H as [H|H]; [by left|].
    apply elem_of_cons in H as [->|H]; [|by apply elem_of_nil in H].
    right. by eexists _, _, _.
Qed.

(** All the server does on the file system for a call: it resolves the
    [file_path] argument, when that is a string, and asks whether the
    resolved path exists, when that path lies strictly inside an allowed
    directory.  Every other event of a call is a log record.  (The
    argument is resolved whatever it is, before the containment test.) *)
Theorem server_file_system_accesses ls request fs ev :
  ev ∈ (server_call_tool ls request fs).1 ->
  (∃ level fmt args, ev = EvLog level fmt args)
  ∨ ∃ d fp,
      arguments (params request) = Some d
      ∧ d !! "file_path" = Some (JString fp)
      ∧ (ev = EvResolve fp
         ∨ ∃ p, ev = EvExists p
              ∧ fs_resolve fs fp = Return p
              ∧ Exists (strictly_inside p) (allowed_dirs ls)).
Proof.
  unfold server_call_tool.
  destruct (decide (name (params request) = "validate")) as [Hname|Hname];
    [|rewrite handle_call_tool_rejected by (by left);
      intros H; by apply elem_of_nil in H].
  destruct (arguments (params request)) as [d|] eqn:Hargs;
    [|rewrite handle_call_tool_rejected
        by (right; intros d; by rewrite Hargs);
      intros H; by apply elem_of_nil in H].
  destruct (d !! "file_path") as [arg|] eqn:Harg;
    [|rewrite handle_call_tool_rejected
        by (right; intros d'; rewrite Hargs; by intros [= <-]);
      intros H; by apply elem_of_nil in H].
  rewrite (handle_call_tool_run _ _ _ _ _ Hname Hargs Harg).
  destruct arg as [| | | |fp| |];
    try (rewrite validate_file_any_not_str by done; cbn [fst];
         intros H; apply elem_of_cons in H as [->|H];
         [left; by eexists _, _, _ | by apply elem_of_nil in H]).
  cbn [validate_file_any].
  pose proof (validate_file_events ls fp fs ev) as Hfile.
  destruct (validate_file_shape ls fp fs) as (t & err & Hshape).
  rewrite Hshape in Hfile |- *.
  intros H.
  assert (ev ∈ t) as Ht by (by destruct err as [[|c msg]|]).
  destruct (Hfile Ht) as [Hpath|Hlog]; [|by left].
  right. exists d, fp. split; [done|]. split; [done|].
  by apply (validate_path_events ls).
Qed.

Lemma server_file_system_accesses_witness :
  ∃ d fp,
    arguments (params (validate_request "/repo/ghost.py")) = Some d
    ∧ d !! "file_path" = Some (JString fp)
    ∧ (EvExists ["repo"; "ghost.py"] = EvResolve fp
       ∨ ∃ p, EvExists ["repo"; "ghost.py"] = EvExists p
            ∧ fs_resolve repo_fs fp = Return p
            ∧ Exists (strictly_inside p) (allowed_dirs repo_server)).
Proof.
  destruct (server_file_system_accesses repo_server
              (validate_request "/repo/ghost.py") repo_fs
              (EvExists ["repo"; "ghost.py"])) as [(l & f & a & [=])|H];
    [vm_compute; right; left | exact H].
Defined.

(** *** The tool list and the handler *)

(** The handler with a usable request is the method followed by the
    formatting of its result. *)
Lemma handle_call_tool_split validate_file_method request fs d arg :
  name (params request) = "validate" ->
  arguments (params request) = Some d ->
  d !! "file_path" = Some arg ->
  handle_call_tool validate_file_method request fs
  = (result ← validate_file_method arg; format_result result) fs.
Proof.
  intros Hname Hargs Harg.
  rewrite (handle_call_tool_run _ _ _ _ _ Hname Hargs Harg), bind_run.
  destruct (validate_file_method arg fs) as [t [result|e]]; [|done].
  unfold format_result.
  rewrite (handle_call_tool_run _ (validate_request "") fs
             {[ "file_path" := JString "" ]} (JString "")
             eq_refl eq_refl eq_refl).
  cbn [mret M_ret].
  destruct (Str.opt_truthy (error result)); [by rewrite app_nil_r|].
  destruct (bool_decide (diagnostics result = [])); [by rewrite app_nil_r|].
  by destruct (format_diagnostics _ (diagnostics result) fs) as [t' [text|e]].
Qed.

(** What is advertised can be called: for a tool of the list, a request
    that names it and gives every key its schema requires passes the
    checks of the handler, which then runs the method on the [file_path]
    argument and formats its result.  Other arguments are ignored. *)
Theorem advertised_tool_is_callable
    (validate_file_method : json -> M ValidationResult)
    listing tool request fs d :
  result_of (handle_list_tools list_tools_request fs) = Return listing ->
  tool ∈ tools listing ->
  name (params request) = Tool.name tool ->
  arguments (params request) = Some d ->
  Forall (λ k, is_Some (d !! k)) (required_keys (Tool.inputSchema tool)) ->
  ∃ arg, d !! "file_path" = Some arg
       ∧ handle_call_tool validate_file_method request fs
         = (result ← validate_file_method arg; format_result result) fs.
Proof.
  intros [= <-] Htool Hname Hargs Hreq. cbn [tools] in Htool.
  apply elem_of_cons in Htool as [->|Htool]; [|by apply elem_of_nil in Htool].
  cbn in Hname, Hreq.
  apply Forall_cons in Hreq as [[arg Harg] _].
  exists arg. split; [done|]. by apply (handle_call_tool_split _ _ _ d).
Qed.

Lemma advertised_tool_is_callable_witness :
  ∃ arg, ({[ "file_path" := JString "/repo/src/a.py" ]} : gmap string json)
         !! "file_path" = Some arg
       ∧ server_call_tool repo_server (validate_request "/repo/src/a.py") repo_fs
         = (result ← validate_file_any repo_server arg; format_result result)
             repo_fs.
Proof.
  eapply (advertised_tool_is_callable (validate_file_any repo_server));
    [reflexivity | by left | reflexivity | reflexivity |].
  repeat constructor. by eexists.
Defined.

(** ** The sandbox at its borders *)

(** Containment goes by whole components, not by a prefix of the text: a
    path that leaves the allowed directory's parent through a different
    component, such as [/repo-private/key.py] beside [/repo], is refused. *)
Theorem validate_path_sibling_refused self fp fs parent c c' rest :
  allowed_dirs self = [parent ++ [c]] ->
  fs_resolve fs fp = Return (parent ++ c' :: rest) ->
  c' ≠ c ->
  validate_path self fp fs
  = ([EvResolve fp], Raise (NotAllowed (parent ++ c' :: rest))).
Proof.
  intros Hdirs Hres Hne. rewrite validate_path_run, Hres.
  rewrite (proj2 (within_allowed_false self _)); [done|].
  rewrite Hdirs. constructor; [|constructor].
  intros [Hpre _]. apply prefix_app_inv in Hpre.
  by apply prefix_cons_inv_1 in Hpre.
Qed.

Lemma validate_path_sibling_refused_witness :
  fs_exists sibling_fs ["repo-private"; "key.py"] = Return true ∧
  validate_path repo_server "/repo-private/key.py" sibling_fs
  = ([EvResolve "/repo-private/key.py"],
     Raise (ValueError "Path not in allowed directories: /repo-private/key.py")).
Proof.
  split; [reflexivity|].
  by apply (validate_path_sibling_refused repo_server _ sibling_fs
              [] "repo" "repo-private" ["key.py"]).
Defined.

(** Allowing the root allows every existing path but the root itself. *)
Theorem validate_path_root_allowed self fp fs p :
  [] ∈ allowed_dirs self ->
  fs_resolve fs fp = Return p ->
  fs_exists fs p = Return true ->
  result_of (validate_path self fp fs)
  = if bool_decide (p = []) then Raise (NotAllowed []) else Return p.
Proof.
  intros Hroot Hres Hex. rewrite validate_path_run, Hres.
  case_bool_decide as Hp.
  - subst p. rewrite (proj2 (within_allowed_false self [])); [done|].
    apply Forall_forall. intros d _ [Hpre Hne].
    by apply prefix_nil_inv in Hpre.
  - rewrite (proj2 (within_allowed_true self p)); [by rewrite Hex|].
    apply Exists_exists. exists []. split; [done|].
    split; [apply prefix_nil | done].
Qed.

Lemma validate_path_root_allowed_witness :
  result_of (validate_path {| allowed_dirs := [[]] |} "/etc/passwd" repo_fs)
  = Return ["etc"; "passwd"] ∧
  result_of (validate_path {| allowed_dirs := [[]] |} "/" repo_fs)
  = Raise (ValueError "Path not in allowed directories: /").
Proof.
  split.
  - by rewrite (validate_path_root_allowed {| allowed_dirs := [[]] |}
                  "/etc/passwd" repo_fs ["etc"; "passwd"])
      by (reflexivity || by left).
  - by rewrite (validate_path_root_allowed {| allowed_dirs := [[]] |}
                  "/" repo_fs [])
      by (reflexivity || by left).
Defined.
